(** * Bee Store API: the catalog and order handlers of [main.py]

    A shallow embedding of the request handlers [list_products],
    [seed_products] and [create_order] over an explicit model of the
    document store, followed by the properties of the handlers.

    Python exceptions are values of [exn]; a handler is a computation in
    a state-and-exception monad over the [World] (the module global [db]
    and the journal of insert calls issued to the driver). *)

From Stdlib Require Import Ascii String QArith.
From stdpp Require Import base strings list gmap.

Local Open Scope string_scope.
Local Open Scope Z_scope.

(** ** bson.ObjectId

    The external [bson] library's identifier: twelve bytes, written as 24
    hexadecimal characters.  An [ObjectId] is kept in its canonical
    (lower-case) written form, which is what [str] returns. *)

Module ObjectId.

Record t := make { hex : string }.

#[global] Instance eq_dec : EqDecision t.
Proof. solve_decision. Defined.

Definition is_hex_digit (c : ascii) : bool :=
  let n := N_of_ascii c in
  ((48 <=? n) && (n <=? 57) || (97 <=? n) && (n <=? 102)
   || (65 <=? n) && (n <=? 70))%N.

Definition lower (c : ascii) : ascii :=
  let n := N_of_ascii c in
  if ((65 <=? n) && (n <=? 70))%N then ascii_of_N (n + 32) else c.

Fixpoint all_hex (s : string) : bool :=
  match s with
  | EmptyString => true
  | String c s' => is_hex_digit c && all_hex s'
  end.

Fixpoint lower_all (s : string) : string :=
  match s with
  | EmptyString => EmptyString
  | String c s' => String (lower c) (lower_all s')
  end.

Definition is_valid (s : string) : bool :=
  (String.length s =? 24)%nat && all_hex s.

(** [ObjectId(s)] for a [str] argument: [None] stands for
    [bson.errors.InvalidId].  The library reads the 24 characters with
    [bytes.fromhex], which also lets ASCII white space through; such a
    string names no stored product, and the handler answers it as it
    answers a string that does not parse. *)
Definition parse (s : string) : option t :=
  if is_valid s then Some (make (lower_all s)) else None.

(** [str(oid)]. *)
Definition str (o : t) : string := hex o.

Definition hex_char (d : N) : ascii :=
  if (d <? 10)%N then ascii_of_N (48 + d) else ascii_of_N (87 + d).

Fixpoint hex_of (digits : nat) (n : N) : string :=
  match digits with
  | O => EmptyString
  | S k => hex_of k (n / 16)%N +:+ String (hex_char (n mod 16)%N) EmptyString
  end.

(** The identifier the driver generates from its counter. *)
Definition of_N (n : N) : t := make (hex_of 24 n).

End ObjectId.

(** ** Documents *)

Record OrderItem := { product_id : string; quantity : Z }.

(** The values stored in a document's fields. *)
Inductive value :=
| VStr (s : string)
| VInt (z : Z)
| VFloat (q : Q)
| VBool (b : bool)
| VOid (o : ObjectId.t)
| VItems (l : list OrderItem).

(** A document is a Python [dict] with string keys. *)
Abbreviation document := (gmap string value).

(** Modelled from the spec: [schemas.Order] is not part of the sources.
    Section 3 gives an order a non-empty sequence of items
    [{product_id: string, quantity: integer >= 1}] and leaves any further
    customer or contact fields open; they are kept as [other_fields]. *)
Record Order := { items : list OrderItem; other_fields : gmap string value }.

(** Modelled from the spec: the shape check of [schemas.Order] that the
    framework runs on the request body before the handler is called
    (section 3: items non-empty, every quantity at least 1). *)
Definition Order_validate (o : Order) : bool :=
  match items o with
  | [] => false
  | _ => forallb (fun it => (1 <=? quantity it)%Z) (items o)
  end.

(** Modelled from the spec: the [dict] an [Order] is stored as. *)
Definition model_dump (o : Order) : document :=
  <["items" := VItems (items o)]> (other_fields o).

(** ** The store *)

(** A database maps collection names to their documents, in insertion
    order; a name that was never written to is an empty collection. *)
Record Database := {
  collections : gmap string (list document);
  next_oid : N
}.

Definition collection (d : Database) (name : string) : list document :=
  default [] (collections d !! name).

(** One call of the driver's insert: the collection, the document handed
    over, and whether the driver accepted it. *)
Record attempt := { at_coll : string; at_doc : document; at_ok : bool }.

(** The module global [db] ([None] when the database is not configured)
    and the journal of the insert calls issued so far. *)
Record World := { db : option Database; journal : list attempt }.

(** ** Exceptions and responses *)

Inductive exn :=
| HTTPException (status_code : Z) (detail : string)
| TypeError                    (* subscripting [None] *)
| InvalidId (oid : string)     (* bson.errors.InvalidId *)
| StoreUnavailable             (* the helpers of [database] without a handle *)
| WriteFailure                 (* the driver rejected an insert *)
| ValidationError.             (* the request body does not fit the schema *)

Inductive response :=
| ProductsResponse (products : list document)
| SeedResponse (message : string) (count : Z)
| IdResponse (id : string).

(** The status the framework answers a raised exception with: an
    [HTTPException] carries its own, a request body that does not fit the
    schema is answered with 422 (the application installs no handler of
    its own for it), and any other exception with 500. *)
Definition http_status (e : exn) : Z :=
  match e with
  | HTTPException status_code _ => status_code
  | ValidationError => 422
  | _ => 500
  end.

(** ** The handler monad *)

Inductive outcome (A : Type) :=
| Raise (e : exn)
| Return (a : A).
Arguments Raise {A} e.
Arguments Return {A} a.

Definition M (A : Type) : Type := World -> outcome A * World.

Definition ret {A} (a : A) : M A := fun w => (Return a, w).
Definition raise {A} (e : exn) : M A := fun w => (Raise e, w).

Definition bind {A B} (m : M A) (k : A -> M B) : M B :=
  fun w =>
    match m w with
    | (Raise e, w') => (Raise e, w')
    | (Return a, w') => k a w'
    end.

(** [try: body except Exception: handler].  Every [exn] is an instance
    of Python's [Exception], [HTTPException] included; the effects of
    [body] up to the raise stay. *)
Definition try_except {A} (body : M A) (handler : exn -> M A) : M A :=
  fun w =>
    match body w with
    | (Raise e, w') => handler e w'
    | (Return a, w') => (Return a, w')
    end.

#[global] Instance M_ret : MRet M := @ret.
#[global] Instance M_bind : MBind M := fun A B k m => bind m k.

(** ** The driver and the helpers of [database] *)

Section Handlers.

(** Whether the driver accepts an insert is outside the program: the
    verdict may depend on everything that happened so far. *)
Variable driver_accepts : World -> string -> document -> bool.

Definition get_db : M (option Database) := fun w => (Return (db w), w).

(** [db[name]]: a handle on the collection, [TypeError] when [db] is
    [None]. *)
Definition db_getitem (name : string) : M string :=
  fun w =>
    match db w with
    | None => (Raise TypeError, w)
    | Some _ => (Return name, w)
    end.

(** [ObjectId(s)]. *)
Definition ObjectId_new (s : string) : M ObjectId.t :=
  match ObjectId.parse s with
  | Some oid => ret oid
  | None => raise (InvalidId s)
  end.

Definition has_id (oid : ObjectId.t) (d : document) : bool :=
  match d !! "_id" with
  | Some (VOid o) => bool_decide (o = oid)
  | _ => false
  end.

(** [coll.find_one({"_id": oid})].  The store is taken to answer its
    reads: a read that the driver fails is not part of the model. *)
Definition find_one (coll : string) (oid : ObjectId.t) : M (option document) :=
  fun w =>
    match db w with
    | None => (Raise TypeError, w)
    | Some d => (Return (List.find (has_id oid) (collection d coll)), w)
    end.

(** [coll.count_documents({})], with the store answering, as for
    [find_one]. *)
Definition count_documents (coll : string) : M Z :=
  fun w =>
    match db w with
    | None => (Raise TypeError, w)
    | Some d => (Return (Z.of_nat (length (collection d coll))), w)
    end.

Definition stored (coll : string) (doc : document) (d : Database) : Database :=
  let oid := ObjectId.of_N (next_oid d) in
  {| collections :=
       <[coll := (collection d coll ++ [<["_id" := VOid oid]> doc])%list]>
         (collections d);
     next_oid := N.succ (next_oid d) |}.

Definition logged (coll : string) (doc : document) (ok : bool) (w : World)
  : list attempt :=
  (journal w ++ [{| at_coll := coll; at_doc := doc; at_ok := ok |}])%list.

(** Modelled from the spec: [database.create_document] is not part of
    the sources.  It is the adapter's [insert(collection, document) -> id]
    of section 2: the store assigns the identifier and the call returns
    it in string form; the insert can fail (section 4.1), and without a
    handle the store is unavailable (section 7). *)
Definition create_document (collection_name : string) (data : document)
  : M string :=
  fun w =>
    match db w with
    | None => (Raise StoreUnavailable, w)
    | Some d =>
        if driver_accepts w collection_name data then
          (Return (ObjectId.str (ObjectId.of_N (next_oid d))),
           {| db := Some (stored collection_name data d);
              journal := logged collection_name data true w |})
        else
          (Raise WriteFailure,
           {| db := db w; journal := logged collection_name data false w |})
    end.

(** Modelled from the spec: [database.get_documents] is not part of the
    sources.  It is the adapter's [find(collection, filter)] of section 2
    with the empty filter: the documents of the collection, each a dict
    of its own. *)
Definition get_documents (collection_name : string) : M (list document) :=
  fun w =>
    match db w with
    | None => (Raise StoreUnavailable, w)
    | Some d => (Return (collection d collection_name), w)
    end.

(** Python's truth value of a [str]. *)
Definition truthy (s : string) : bool :=
  match s with
  | EmptyString => false
  | String _ _ => true
  end.

(** ** Catalog handlers *)

(** The loop body of [list_products]. *)
Definition normalize_id (d : document) : document :=
  match d !! "_id" with
  | Some (VOid oid) => <["_id" := VStr (ObjectId.str oid)]> d
  | _ => d
  end.

Definition list_products : M response :=
  docs ← get_documents "beeproduct";
  ret (ProductsResponse (normalize_id <$> docs)).

Definition product (name species description : string) (price : Q)
    (image : string) (in_stock : bool) : document :=
  list_to_map
    [("name", VStr name); ("species", VStr species);
     ("description", VStr description); ("price", VFloat price);
     ("image", VStr image); ("in_stock", VBool in_stock)].

(** Modelled from the spec: [schemas.BeeProduct] is not part of the
    sources; section 3 gives a product these fields. *)
Record BeeProduct := {
  bp_name : string;
  bp_species : string;
  bp_description : string;
  bp_price : Q;
  bp_image : string;
  bp_in_stock : bool
}.

(** Modelled from the spec: the [dict] a [BeeProduct] is stored as. *)
Definition BeeProduct_dump (p : BeeProduct) : document :=
  product (bp_name p) (bp_species p) (bp_description p) (bp_price p)
    (bp_image p) (bp_in_stock p).

Definition create_product (p : BeeProduct) : M response :=
  inserted_id ← create_document "beeproduct" (BeeProduct_dump p);
  ret (IdResponse inserted_id).

Definition defaults : list document :=
  [ product "Italian Honey Bees (Nucleus)" "Apis mellifera ligustica"
      "Gentle temperament, great honey production. 5-frame nuc with marked queen."
      (185 # 1)
      "https://images.unsplash.com/photo-1506703719100-a0f3a48c0f86?q=80&w=1200&auto=format&fit=crop"
      true;
    product "Carniolan Package Bees" "Apis mellifera carnica"
      "Fast spring buildup and overwintering success. 3 lb package with mated queen."
      (165 # 1)
      "https://images.unsplash.com/photo-1470115636492-6d2b56f9146e?q=80&w=1200&auto=format&fit=crop"
      true;
    product "Saskatraz Queens" "Apis mellifera"
      "Selected for mite tolerance and productivity. Marked, mated queen ready to introduce."
      (42 # 1)
      "https://images.unsplash.com/photo-1510877073473-6d4545e9c7e1?q=80&w=1200&auto=format&fit=crop"
      true;
    product "Native Bumblebee Colony" "Bombus impatiens"
      "Excellent greenhouse pollinators. Complete colony with queen and workers."
      (299 # 1)
      "https://images.unsplash.com/photo-1461354464878-ad92f492a5a0?q=80&w=1200&auto=format&fit=crop"
      false ].

(** The body of the [for p in defaults] loop. *)
Definition seed_one (p : document) (inserted : Z) : M Z :=
  try_except
    (inserted_id ← create_document "beeproduct" p;
     if truthy inserted_id then ret (inserted + 1) else ret inserted)
    (fun _ => ret inserted).

Fixpoint seed_loop (ps : list document) (inserted : Z) : M Z :=
  match ps with
  | [] => ret inserted
  | p :: ps' =>
      inserted' ← seed_one p inserted;
      seed_loop ps' inserted'
  end.

Definition seed_products : M response :=
  handle ← get_db;
  match handle with
  | None => raise (HTTPException 500 "Database not configured")
  | Some _ =>
      coll ← db_getitem "beeproduct";
      count ← count_documents coll;
      if 0 <? count then ret (SeedResponse "Products already seeded" count)
      else
        inserted ← seed_loop defaults 0;
        ret (SeedResponse "Seeded products" inserted)
  end.

(** ** Order handler *)

(** The body of the [for item in order.items] loop. *)
Definition verify_item (item : OrderItem) : M unit :=
  try_except
    (coll ← db_getitem "beeproduct";
     oid ← ObjectId_new (product_id item);
     found ← find_one coll oid;
     match found with
     | None =>
         raise (HTTPException 400 ("Product not found: " +:+ product_id item))
     | Some _ => ret tt
     end)
    (fun _ =>
       raise (HTTPException 400 ("Invalid product id: " +:+ product_id item))).

Fixpoint verify_items (l : list OrderItem) : M unit :=
  match l with
  | [] => ret tt
  | item :: rest => verify_item item ;; verify_items rest
  end.

Definition create_order (order : Order) : M response :=
  verify_items (items order) ;;
  inserted_id ← create_document "order" (model_dump order);
  ret (IdResponse inserted_id).

(** Modelled from the spec: the route [POST /api/orders] checks the body
    against [schemas.Order] (absent from the sources) before it calls the
    handler, and answers a body that does not fit with a validation
    error (section 4.2, step 1). *)
Definition post_api_orders (body : Order) : M response :=
  if Order_validate body then create_order body else raise ValidationError.

End Handlers.

(** ** The diagnostic handler *)

(** The values of the diagnostic object. *)
Inductive json :=
| JNone
| JStr (s : string)
| JList (l : list string).

Section Diagnostics.

(** [os.environ]. *)
Variable environ : gmap string string.

(** Reading [db.name]: [inl] is the text of an exception other than
    [AttributeError], [inr None] a handle without the attribute, for
    which [hasattr] is false. *)
Variable name_attr : Database -> string + option string.

(** [db.list_collection_names()]: the names, or the text of the exception
    the driver raises. *)
Variable list_collection_names : Database -> string + list string.

(** The truth value of [os.getenv(key)]: set, and not the empty string. *)
Definition getenv_truthy (key : string) : bool :=
  match environ !! key with
  | Some v => truthy v
  | None => false
  end.

(** A byte that continues a character of a text held as UTF-8. *)
Definition is_continuation (c : ascii) : bool :=
  let n := N_of_ascii c in ((128 <=? n) && (n <? 192))%N.

(** The first [n] characters of a text held as UTF-8. *)
Fixpoint take_chars (n : nat) (s : string) : string :=
  match s with
  | EmptyString => EmptyString
  | String c s' =>
      if is_continuation c then String c (take_chars n s')
      else
        match n with
        | O => EmptyString
        | S n' => String c (take_chars n' s')
        end
  end.

(** [s[:50]]. *)
Definition slice50 (s : string) : string := take_chars 50 s.

Definition test_database (w : World) : gmap string json :=
  let response : gmap string json :=
    list_to_map
      [("backend", JStr "✅ Running"); ("database", JStr "❌ Not Available");
       ("database_url", JNone); ("database_name", JNone);
       ("connection_status", JStr "Not Connected"); ("collections", JList [])] in
  let response :=
    match db w with
    | Some d =>
        let response := <["database" := JStr "✅ Available"]> response in
        let response := <["database_url" := JStr "✅ Configured"]> response in
        match name_attr d with
        | inl e =>
            (* the outer [except Exception as e] *)
            <["database" := JStr ("❌ Error: " +:+ slice50 e)]> response
        | inr name =>
            let response :=
              <["database_name" := JStr (default "✅ Connected" name)]> response in
            let response := <["connection_status" := JStr "Connected"]> response in
            match list_collection_names d with
            | inr collections =>
                let response :=
                  <["collections" := JList (take 10 collections)]> response in
                <["database" := JStr "✅ Connected & Working"]> response
            | inl e =>
                <["database" := JStr ("⚠️  Connected but Error: " +:+ slice50 e)]>
                  response
            end
        end
    | None => <["database" := JStr "⚠️  Available but not initialized"]> response
    end in
  let response :=
    <["database_url" :=
        JStr (if getenv_truthy "DATABASE_URL" then "✅ Set" else "❌ Not Set")]>
      response in
  <["database_name" :=
      JStr (if getenv_truthy "DATABASE_NAME" then "✅ Set" else "❌ Not Set")]>
    response.

End Diagnostics.

(** ** Vocabulary of the properties *)

(** An item passes the check of [create_order]: there is a database, the
    item's [product_id] is a well-formed identifier, and a product
    document carries it. *)
Definition item_found (w : World) (it : OrderItem) : bool :=
  match db w, ObjectId.parse (product_id it) with
  | Some d, Some oid =>
      match List.find (has_id oid) (collection d "beeproduct") with
      | Some _ => true
      | None => false
      end
  | _, _ => false
  end.

(** The error [create_order] answers a failing item with. *)
Definition invalid_product_id (it : OrderItem) : exn :=
  HTTPException 400 ("Invalid product id: " +:+ product_id it).

(** The error the handler's inner [raise] builds for a missing product. *)
Definition product_not_found (it : OrderItem) : exn :=
  HTTPException 400 ("Product not found: " +:+ product_id it).

(** The number of accepted inserts among some attempts. *)
Definition successes (l : list attempt) : Z :=
  Z.of_nat (length (filter (fun a => at_ok a = true) l)).

(** Handing documents to the driver one at a time, as the specification
    of seeding has it: each document is offered whatever the verdicts on
    the earlier ones were; an accepted one is stored under a new
    identifier, a rejected one leaves the store as it is; every offer is
    journalled with the driver's verdict. *)
Fixpoint attempt_each (driver_accepts : World -> string -> document -> bool)
    (coll : string) (docs : list document) (w : World) : list attempt * World :=
  match docs with
  | [] => ([], w)
  | doc :: rest =>
      let ok := driver_accepts w coll doc in
      let w1 :=
        {| db := (fun d => if ok then stored coll doc d else d) <$> db w;
           journal := logged coll doc ok w |} in
      let (atts, w') := attempt_each driver_accepts coll rest w1 in
      ({| at_coll := coll; at_doc := doc; at_ok := ok |} :: atts, w')
  end.

(** What a stored document looks like once its identifier is in string
    form: every other field as stored, an [ObjectId] under ["_id"]
    replaced by its written form, anything else under ["_id"] kept. *)
Definition transported (kept sent : document) : Prop :=
  (forall k, k <> "_id" -> sent !! k = kept !! k)
  /\ match kept !! "_id" with
     | Some (VOid oid) => sent !! "_id" = Some (VStr (ObjectId.str oid))
     | other => sent !! "_id" = other
     end.

(** The world after a sequence of order creations, whatever each of them
    answered. *)
Definition place_orders (driver_accepts : World -> string -> document -> bool)
    (orders : list Order) (w : World) : World :=
  fold_left (fun w' o => snd (create_order driver_accepts o w')) orders w.

(** ** Sample worlds and orders *)

Definition always_accepts : World -> string -> document -> bool :=
  fun _ _ _ => true.

(** A driver that rejects the first insert of a run and accepts the rest. *)
Definition rejects_first : World -> string -> document -> bool :=
  fun w _ _ => match journal w with [] => false | _ => true end.

Definition never_accepts : World -> string -> document -> bool :=
  fun _ _ _ => false.

Definition empty_database : Database := {| collections := ∅; next_oid := 0 |}.

Definition fresh_world : World := {| db := Some empty_database; journal := [] |}.

Definition unconfigured_world : World := {| db := None; journal := [] |}.

(** The world after seeding the empty catalog. *)
Definition seeded_world : World := snd (seed_products always_accepts fresh_world).

Definition seeded_database : Database :=
  default empty_database (db seeded_world).

Definition queen : BeeProduct :=
  {| bp_name := "Buckfast Queen"; bp_species := "Apis mellifera";
     bp_description := "Marked, mated queen."; bp_price := 45 # 1;
     bp_image := "https://example.org/queen.jpg"; bp_in_stock := true |}.

Definition order_of (ids : list string) : Order :=
  {| items := (fun i => {| product_id := i; quantity := 1 |}) <$> ids;
     other_fields := ∅ |}.

(** ** Properties of the store operations *)

Ltac run := unfold mbind, M_bind, bind, try_except, ret, raise in *.

Lemma collection_stored_same (coll : string) (doc : document) (d : Database) :
  collection (stored coll doc d) coll
  = (collection d coll ++ [<["_id" := VOid (ObjectId.of_N (next_oid d))]> doc])%list.
Proof. unfold collection at 1, stored; simpl. by rewrite lookup_insert_eq. Qed.

Lemma collection_stored_other (coll other : string) (doc : document) (d : Database) :
  other <> coll -> collection (stored coll doc d) other = collection d other.
Proof.
  intros Hne. unfold collection, stored; simpl. by rewrite lookup_insert_ne.
Qed.

Lemma hex_of_nonempty (k : nat) (n : N) : ObjectId.hex_of (S k) n <> "".
Proof.
  simpl. destruct (ObjectId.hex_of k (n / 16)); discriminate.
Qed.

Lemma truthy_generated (n : N) : truthy (ObjectId.str (ObjectId.of_N n)) = true.
Proof.
  unfold ObjectId.str, ObjectId.of_N; simpl ObjectId.hex.
  pose proof (hex_of_nonempty 23 n) as Hne.
  destruct (ObjectId.hex_of 24 n); [congruence | reflexivity].
Qed.

(** ** The check of the items *)

Lemma verify_item_eq (it : OrderItem) (w : World) :
  verify_item it w
  = (if item_found w it then Return tt else Raise (invalid_product_id it), w).
Proof.
  unfold verify_item, item_found, invalid_product_id, db_getitem, ObjectId_new,
    find_one.
  run. destruct (db w) as [d|] eqn:Hdb; [|reflexivity].
  destruct (ObjectId.parse (product_id it)) as [oid|]; simpl; [|reflexivity].
  rewrite Hdb. by destruct (List.find _ _).
Qed.

Lemma verify_items_pass (l : list OrderItem) (w : World) :
  Forall (fun it => item_found w it = true) l ->
  verify_items l w = (Return tt, w).
Proof.
  induction 1 as [|it l Hit _ IH]; [reflexivity|].
  simpl. run. by rewrite verify_item_eq, Hit.
Qed.

Lemma verify_items_fail (pre suf : list OrderItem) (it : OrderItem) (w : World) :
  Forall (fun i => item_found w i = true) pre ->
  item_found w it = false ->
  verify_items (pre ++ it :: suf) w = (Raise (invalid_product_id it), w).
Proof.
  intros Hpre Hit. induction Hpre as [|i pre Hi _ IH]; simpl; run.
  - by rewrite verify_item_eq, Hit.
  - by rewrite verify_item_eq, Hi.
Qed.

(** The items split at the first one that does not pass. *)
Lemma first_failing_item (w : World) (l : list OrderItem) :
  Forall (fun it => item_found w it = true) l
  \/ exists pre it suf,
       l = (pre ++ it :: suf)%list
       /\ Forall (fun i => item_found w i = true) pre
       /\ item_found w it = false.
Proof.
  induction l as [|i l IH]; [by left|].
  destruct (item_found w i) eqn:Hi.
  - destruct IH as [Hall | (pre & it & suf & -> & Hpre & Hit)].
    + left. by constructor.
    + right. exists (i :: pre), it, suf. repeat split; [by constructor | done].
  - right. exists [], i, l. by repeat split.
Qed.

Lemma verify_items_world (l : list OrderItem) (w : World) :
  snd (verify_items l w) = w.
Proof.
  destruct (first_failing_item w l) as [Hall | (pre & it & suf & -> & Hpre & Hit)].
  - by rewrite verify_items_pass.
  - by rewrite (verify_items_fail _ _ _ _ Hpre Hit).
Qed.

(** ** [create_order] *)

Section CreateOrder.

Variable driver_accepts : World -> string -> document -> bool.

Lemma create_order_rejected (order : Order) (w : World)
    (pre suf : list OrderItem) (it : OrderItem) :
  items order = (pre ++ it :: suf)%list ->
  Forall (fun i => item_found w i = true) pre ->
  item_found w it = false ->
  create_order driver_accepts order w = (Raise (invalid_product_id it), w).
Proof.
  intros Hitems Hpre Hit. unfold create_order. run.
  by rewrite Hitems, (verify_items_fail _ _ _ _ Hpre Hit).
Qed.

Lemma create_order_checked (order : Order) (w : World) :
  Forall (fun it => item_found w it = true) (items order) ->
  create_order driver_accepts order w
  = match create_document driver_accepts "order" (model_dump order) w with
    | (Raise e, w') => (Raise e, w')
    | (Return inserted_id, w') => (Return (IdResponse inserted_id), w')
    end.
Proof.
  intros Hall. unfold create_order. run.
  by rewrite (verify_items_pass _ _ Hall).
Qed.

(** The handler leaves every collection but ["order"] as it was, and the
    database handle stays configured or unconfigured. *)
Lemma create_order_frame (order : Order) (w : World) :
  match db w, db (snd (create_order driver_accepts order w)) with
  | Some d, Some d' =>
      forall coll, coll <> "order" -> collection d' coll = collection d coll
  | None, None => True
  | _, _ => False
  end.
Proof.
  destruct (first_failing_item w (items order))
    as [Hall | (pre & it & suf & Hitems & Hpre & Hit)].
  - rewrite (create_order_checked _ _ Hall). unfold create_document.
    destruct (db w) as [d|] eqn:Hdb; simpl; [|by rewrite Hdb].
    destruct (driver_accepts w "order" (model_dump order)); simpl.
    + intros coll Hne. by apply collection_stored_other.
    + done.
  - rewrite (create_order_rejected _ _ _ _ _ Hitems Hpre Hit). simpl.
    by destruct (db w).
Qed.

(** The handler never answers with the error its inner [raise] builds:
    the surrounding [except Exception] replaces it. *)
Lemma create_order_never_product_not_found (order : Order) (w : World)
    (it : OrderItem) :
  fst (create_order driver_accepts order w) <> Raise (product_not_found it).
Proof.
  destruct (first_failing_item w (items order))
    as [Hall | (pre & i & suf & Hitems & Hpre & Hit)].
  - rewrite (create_order_checked _ _ Hall). unfold create_document.
    destruct (db w); [|discriminate].
    destruct (driver_accepts _ _ _); discriminate.
  - rewrite (create_order_rejected _ _ _ _ _ Hitems Hpre Hit). discriminate.
Qed.

(** Without the schema check the handler accepts an order without
    items: the loop has nothing to reject and the insert is issued. *)
Lemma create_order_no_items_inserts (order : Order) (w : World) :
  items order = [] ->
  create_order driver_accepts order w
  = match create_document driver_accepts "order" (model_dump order) w with
    | (Raise e, w') => (Raise e, w')
    | (Return inserted_id, w') => (Return (IdResponse inserted_id), w')
    end.
Proof.
  intros Hitems. apply create_order_checked. rewrite Hitems. constructor.
Qed.

(** A call issues at most one insert, into ["order"], and only when
    every item has passed the check. *)
Lemma create_order_single_insert (order : Order) (w : World) :
  let w' := snd (create_order driver_accepts order w) in
  journal w' = journal w
  \/ Forall (fun it => item_found w it = true) (items order)
     /\ exists ok,
          journal w'
          = (journal w
             ++ [{| at_coll := "order"; at_doc := model_dump order; at_ok := ok |}])%list.
Proof.
  destruct (first_failing_item w (items order))
    as [Hall | (pre & it & suf & Hitems & Hpre & Hit)]; simpl.
  - rewrite (create_order_checked _ _ Hall). unfold create_document.
    destruct (db w); [|by left].
    destruct (driver_accepts _ _ _); right; (split; [done|]); eauto.
  - left. by rewrite (create_order_rejected _ _ _ _ _ Hitems Hpre Hit).
Qed.

End CreateOrder.

(** ** [seed_products] *)

Lemma successes_cons (a : attempt) (l : list attempt) :
  successes (a :: l) = (if at_ok a then 1 else 0) + successes l.
Proof.
  unfold successes. rewrite filter_cons.
  destruct (at_ok a); case_decide; simpl length; try congruence; lia.
Qed.

Lemma successes_bounds (l : list attempt) :
  0 <= successes l <= Z.of_nat (length l).
Proof.
  unfold successes. pose proof (length_filter (fun a => at_ok a = true) l). lia.
Qed.

Lemma successes_all (l : list attempt) :
  Forall (fun a => at_ok a = true) l -> successes l = Z.of_nat (length l).
Proof.
  induction 1 as [|a l Ha _ IH]; [reflexivity|].
  rewrite successes_cons, Ha, IH. simpl length. lia.
Qed.

Section Seed.

Variable driver_accepts : World -> string -> document -> bool.

Lemma seed_one_run (p : document) (inserted : Z) (w : World) (d : Database) :
  db w = Some d ->
  let ok := driver_accepts w "beeproduct" p in
  seed_one driver_accepts p inserted w
  = (Return (if ok then inserted + 1 else inserted),
     {| db := Some (if ok then stored "beeproduct" p d else d);
        journal := logged "beeproduct" p ok w |}).
Proof.
  intros Hdb ok. subst ok. unfold seed_one, create_document. run.
  rewrite Hdb. destruct (driver_accepts w "beeproduct" p); [|reflexivity].
  by rewrite truthy_generated.
Qed.


Lemma seed_loop_attempts (ps : list document) :
  forall (inserted : Z) (w : World) (d : Database),
    db w = Some d ->
    seed_loop driver_accepts ps inserted w
    = (Return (inserted
               + successes (fst (attempt_each driver_accepts "beeproduct" ps w))),
       snd (attempt_each driver_accepts "beeproduct" ps w)).
Proof.
  induction ps as [|p ps IH]; intros inserted w d Hdb.
  - simpl. unfold ret, successes. simpl. do 2 f_equal. lia.
  - simpl. run. rewrite (seed_one_run p inserted w d Hdb). rewrite Hdb. simpl.
    set (ok := driver_accepts w "beeproduct" p).
    set (w1 := {| db := Some (if ok then stored "beeproduct" p d else d);
                  journal := logged "beeproduct" p ok w |}).
    rewrite (IH (if ok then inserted + 1 else inserted) w1
               (if ok then stored "beeproduct" p d else d) eq_refl).
    destruct (attempt_each driver_accepts "beeproduct" ps w1) as [atts w'].
    simpl. rewrite successes_cons. simpl. do 2 f_equal. destruct ok; lia.
Qed.

Lemma attempt_each_facts (coll : string) (docs : list document) :
  forall (w : World) (d : Database),
    db w = Some d ->
    exists d' : Database,
      let r := attempt_each driver_accepts coll docs w in
      journal (snd r) = (journal w ++ fst r)%list
      /\ at_doc <$> fst r = docs
      /\ Forall (fun a => at_coll a = coll) (fst r)
      /\ db (snd r) = Some d'
      /\ Z.of_nat (length (collection d' coll))
         = Z.of_nat (length (collection d coll)) + successes (fst r).
Proof.
  induction docs as [|doc docs IH]; intros w d Hdb.
  - exists d. simpl. rewrite app_nil_r. unfold successes. simpl.
    repeat split; [constructor | done | lia].
  - simpl. rewrite Hdb. simpl.
    set (ok := driver_accepts w coll doc).
    set (w1 := {| db := Some (if ok then stored coll doc d else d);
                  journal := logged coll doc ok w |}).
    destruct (IH w1 (if ok then stored coll doc d else d) eq_refl)
      as (d' & Hj & Hdocs & Hcoll & Hdb' & Hlen).
    destruct (attempt_each driver_accepts coll docs w1) as [atts w'].
    simpl in *. exists d'. rewrite successes_cons. simpl.
    split; [|split; [|split; [|split]]].
    + rewrite Hj. unfold logged. by rewrite <- app_assoc.
    + by rewrite <- Hdocs.
    + by constructor.
    + done.
    + rewrite Hlen. destruct ok; [|lia].
      rewrite collection_stored_same, length_app. simpl length. lia.
Qed.

Lemma attempt_each_all_accepted (coll : string) (docs : list document) :
  (forall (w : World) (doc : document), driver_accepts w coll doc = true) ->
  forall w : World,
    Forall (fun a => at_ok a = true) (fst (attempt_each driver_accepts coll docs w)).
Proof.
  intros Hall. induction docs as [|doc docs IH]; intros w; [constructor|].
  simpl.
  match goal with
  | |- context [attempt_each driver_accepts coll docs ?w1] =>
      specialize (IH w1);
      destruct (attempt_each driver_accepts coll docs w1) as [atts w']
  end.
  simpl in *. constructor; [apply Hall | exact IH].
Qed.

End Seed.

(** ** [list_products] *)

Lemma normalize_id_transported (d : document) : transported d (normalize_id d).
Proof.
  unfold transported, normalize_id.
  destruct (d !! "_id") as [[]|] eqn:Hid; split; intros; try done.
  - by rewrite lookup_insert_ne.
  - by rewrite lookup_insert_eq.
Qed.

Lemma list_products_run (w : World) (d : Database) :
  db w = Some d ->
  list_products w
  = (Return (ProductsResponse (normalize_id <$> collection d "beeproduct")), w).
Proof. intros Hdb. unfold list_products, get_documents. run. by rewrite Hdb. Qed.

Lemma list_products_after_order
    (driver_accepts : World -> string -> document -> bool)
    (order : Order) (w : World) :
  fst (list_products (snd (create_order driver_accepts order w)))
  = fst (list_products w).
Proof.
  pose proof (create_order_frame driver_accepts order w) as Hframe.
  destruct (db w) as [d|] eqn:Hdb;
    destruct (db (snd (create_order driver_accepts order w))) as [d'|] eqn:Hdb';
    try done.
  - rewrite (list_products_run _ _ Hdb), (list_products_run _ _ Hdb'). simpl.
    by rewrite Hframe.
  - unfold list_products, get_documents. run. by rewrite Hdb, Hdb'.
Qed.

Lemma list_products_after_orders
    (driver_accepts : World -> string -> document -> bool)
    (orders : list Order) :
  forall w : World,
    fst (list_products (place_orders driver_accepts orders w))
    = fst (list_products w).
Proof.
  unfold place_orders. induction orders as [|o orders IH]; intros w; [done|].
  simpl. by rewrite IH, list_products_after_order.
Qed.

(** ** The handlers against their specification *)

(** C1: an order whose [product_id] is well formed but carried by no
    product is not answered with ['Product not found: <id>']: on the
    seeded catalog, [create_order] answers the well-formed, unknown
    identifier [0123456789abcdef01234567] with 400 and
    ['Invalid product id: 0123456789abcdef01234567'], the error of a
    malformed identifier.  No insert is issued and the world is as
    before. *)
Theorem create_order_unknown_product_reported_invalid :
  let order := order_of ["0123456789abcdef01234567"] in
  Forall (fun it => is_Some (ObjectId.parse (product_id it))) (items order)
  /\ Forall (fun it => item_found seeded_world it = false) (items order)
  /\ create_order always_accepts order seeded_world
     = (Raise (HTTPException 400 "Invalid product id: 0123456789abcdef01234567"),
        seeded_world)
  /\ fst (create_order always_accepts order seeded_world)
     <> Raise (HTTPException 400 "Product not found: 0123456789abcdef01234567").
Proof.
  simpl. split; [|split; [|split]].
  - repeat constructor. by eexists.
  - by repeat constructor.
  - apply (create_order_rejected always_accepts _ _ [] []
             {| product_id := "0123456789abcdef01234567"; quantity := 1 |});
      [reflexivity | constructor | reflexivity].
  - apply (create_order_never_product_not_found always_accepts _ _
             {| product_id := "0123456789abcdef01234567"; quantity := 1 |}).
Qed.

(** C2: when the items are empty, or some item's [product_id] cannot be
    parsed or matches no product, the route [POST /api/orders] raises an
    error and the world is as before: no order document is stored and no
    insert was issued.  With a failing item the handler itself raises
    before it reaches its insert. *)
Theorem post_api_orders_rejects_without_insert
    (driver_accepts : World -> string -> document -> bool)
    (body : Order) (w : World) :
  items body = [] \/ Exists (fun it => item_found w it = false) (items body) ->
  (exists e, post_api_orders driver_accepts body w = (Raise e, w))
  /\ (items body <> [] ->
      exists e, create_order driver_accepts body w = (Raise e, w)).
Proof.
  intros Hbad.
  assert (Hhandler : items body <> [] ->
                     exists e, create_order driver_accepts body w = (Raise e, w)).
  { intros Hsome. destruct Hbad as [Hnone | Hfail]; [done|].
    destruct (first_failing_item w (items body))
      as [Hall | (pre & it & suf & Hitems & Hpre & Hit)].
    - exfalso. apply Exists_exists in Hfail as (it & Hin & Hit).
      rewrite Forall_forall in Hall. specialize (Hall it Hin). congruence.
    - exists (invalid_product_id it).
      by apply (create_order_rejected _ _ _ pre suf it). }
  split; [|exact Hhandler].
  unfold post_api_orders.
  destruct (Order_validate body) eqn:Hshape; [|by exists ValidationError].
  apply Hhandler. intros Hnone. unfold Order_validate in Hshape.
  by rewrite Hnone in Hshape.
Qed.

Lemma post_api_orders_rejects_without_insert_witness :
  (exists e,
      post_api_orders always_accepts
        (order_of ["000000000000000000000000"; "not-an-id"]) seeded_world
      = (Raise e, seeded_world))
  /\ (items (order_of ["000000000000000000000000"; "not-an-id"]) <> [] ->
      exists e,
        create_order always_accepts
          (order_of ["000000000000000000000000"; "not-an-id"]) seeded_world
        = (Raise e, seeded_world)).
Proof.
  apply (post_api_orders_rejects_without_insert always_accepts
           (order_of ["000000000000000000000000"; "not-an-id"]) seeded_world).
  right. simpl. apply Exists_cons_tl, Exists_cons_hd. reflexivity.
Defined.

(** C3: when the product collection holds at least one document,
    [seed_products] answers ['Products already seeded'] with the current
    count, and the world is as before: no insert was issued. *)
Theorem seed_products_already_seeded
    (driver_accepts : World -> string -> document -> bool)
    (w : World) (d : Database) :
  db w = Some d ->
  (0 < length (collection d "beeproduct"))%nat ->
  seed_products driver_accepts w
  = (Return (SeedResponse "Products already seeded"
               (Z.of_nat (length (collection d "beeproduct")))), w).
Proof.
  intros Hdb Hcount. unfold seed_products, get_db, db_getitem, count_documents.
  run. repeat (rewrite Hdb; simpl).
  destruct (0 <? Z.of_nat (length (collection d "beeproduct"))) eqn:Hlt;
    [reflexivity | lia].
Qed.

Lemma seed_products_already_seeded_witness :
  db seeded_world = Some seeded_database
  /\ (0 < length (collection seeded_database "beeproduct"))%nat
  /\ seed_products always_accepts seeded_world
     = (Return (SeedResponse "Products already seeded"
                  (Z.of_nat (length (collection seeded_database "beeproduct")))),
        seeded_world).
Proof.
  assert (Hdb : db seeded_world = Some seeded_database) by reflexivity.
  assert (Hcount : (0 < length (collection seeded_database "beeproduct"))%nat)
    by (vm_compute; lia).
  split; [exact Hdb | split; [exact Hcount |]].
  exact (seed_products_already_seeded always_accepts seeded_world
           seeded_database Hdb Hcount).
Defined.

(** C4: on an empty product collection [seed_products] hands each of the
    four default products to the driver, in their order, whatever the
    driver answered to the earlier ones: the inserts it issues, with the
    driver's verdict on each, and the world it leaves are those of
    [attempt_each].  It returns ['Seeded products'] with the number of
    accepted inserts, which is also the number of documents now in the
    collection, and which is 4 when the driver accepts all four. *)
Theorem seed_products_empty_catalog
    (driver_accepts : World -> string -> document -> bool)
    (w : World) (d : Database) :
  db w = Some d ->
  collection d "beeproduct" = [] ->
  exists (atts : list attempt) (w' : World) (d' : Database),
    attempt_each driver_accepts "beeproduct" defaults w = (atts, w')
    /\ seed_products driver_accepts w
       = (Return (SeedResponse "Seeded products" (successes atts)), w')
    /\ journal w' = (journal w ++ atts)%list
    /\ at_doc <$> atts = defaults
    /\ length defaults = 4%nat
    /\ Forall (fun a => at_coll a = "beeproduct") atts
    /\ db w' = Some d'
    /\ Z.of_nat (length (collection d' "beeproduct")) = successes atts
    /\ (Forall (fun a => at_ok a = true) atts -> successes atts = 4)
    /\ ((forall (w0 : World) (doc : document),
           driver_accepts w0 "beeproduct" doc = true) ->
        successes atts = 4).
Proof.
  intros Hdb Hempty.
  destruct (attempt_each_facts driver_accepts "beeproduct" defaults w d Hdb)
    as (d' & Hj & Hdocs & Hcoll & Hdb' & Hlen).
  pose proof (seed_loop_attempts driver_accepts defaults 0 w d Hdb) as Hrun.
  pose proof (attempt_each_all_accepted driver_accepts "beeproduct" defaults)
    as Hacc.
  destruct (attempt_each driver_accepts "beeproduct" defaults w) as [atts w']
    eqn:Heach.
  cbn [fst snd] in Hj, Hdocs, Hcoll, Hdb', Hlen, Hrun.
  exists atts, w', d'.
  assert (Hfour : Forall (fun a => at_ok a = true) atts -> successes atts = 4).
  { intros Hall. rewrite (successes_all _ Hall).
    assert (Hn : length (at_doc <$> atts) = 4%nat) by (by rewrite Hdocs).
    rewrite length_fmap in Hn. by rewrite Hn. }
  assert (Hseed : seed_products driver_accepts w
                  = (Return (SeedResponse "Seeded products" (successes atts)), w')).
  { unfold seed_products, get_db, db_getitem, count_documents.
    run. repeat (rewrite Hdb; simpl). rewrite Hempty. simpl.
    change (bind (seed_loop driver_accepts defaults 0)
              (fun inserted => ret (SeedResponse "Seeded products" inserted)) w
            = (Return (SeedResponse "Seeded products" (successes atts)), w')).
    unfold bind. by rewrite Hrun. }
  rewrite Hempty in Hlen. simpl in Hlen.
  split; [reflexivity|]. split; [exact Hseed|]. split; [exact Hj|].
  split; [exact Hdocs|]. split; [reflexivity|]. split; [exact Hcoll|].
  split; [exact Hdb'|]. split; [exact Hlen|]. split; [exact Hfour|].
  intros Hall. apply Hfour.
  specialize (Hacc Hall w). by rewrite Heach in Hacc.
Qed.

Lemma seed_products_empty_catalog_witness :
  exists (atts : list attempt) (w' : World) (d' : Database),
    attempt_each always_accepts "beeproduct" defaults fresh_world = (atts, w')
    /\ seed_products always_accepts fresh_world
       = (Return (SeedResponse "Seeded products" (successes atts)), w')
    /\ journal w' = (journal fresh_world ++ atts)%list
    /\ at_doc <$> atts = defaults
    /\ length defaults = 4%nat
    /\ Forall (fun a => at_coll a = "beeproduct") atts
    /\ db w' = Some d'
    /\ Z.of_nat (length (collection d' "beeproduct")) = successes atts
    /\ (Forall (fun a => at_ok a = true) atts -> successes atts = 4)
    /\ ((forall (w0 : World) (doc : document),
           always_accepts w0 "beeproduct" doc = true) ->
        successes atts = 4).
Proof.
  apply (seed_products_empty_catalog always_accepts fresh_world empty_database);
    reflexivity.
Defined.

(** A rejected insert does not stop the loop: with a driver that rejects
    the first insert only, three products are counted and stored. *)
Example seed_products_swallows_rejection :
  fst (seed_products rejects_first fresh_world)
  = Return (SeedResponse "Seeded products" 3)
  /\ at_ok <$> journal (snd (seed_products rejects_first fresh_world))
     = [false; true; true; true].
Proof. split; reflexivity. Qed.

(** C6: with a database configured, [list_products] returns one document
    for each document of the product collection, in the collection's
    order, each as stored but for an [ObjectId] under ["_id"], which is
    in string form; the world is as before. *)
Theorem list_products_returns_all (w : World) (d : Database) :
  db w = Some d ->
  exists docs : list document,
    list_products w = (Return (ProductsResponse docs), w)
    /\ Forall2 transported (collection d "beeproduct") docs.
Proof.
  intros Hdb. exists (normalize_id <$> collection d "beeproduct").
  split; [by apply list_products_run|].
  induction (collection d "beeproduct") as [|doc docs IH]; [constructor|].
  rewrite fmap_cons. constructor; [apply normalize_id_transported | exact IH].
Qed.

Lemma list_products_returns_all_witness :
  exists docs : list document,
    list_products seeded_world = (Return (ProductsResponse docs), seeded_world)
    /\ Forall2 transported (collection seeded_database "beeproduct") docs.
Proof.
  apply (list_products_returns_all seeded_world seeded_database). reflexivity.
Defined.

(** C7: without a database handle [seed_products] raises the 500 error
    ['Database not configured'], and the world is as before: no insert
    was issued. *)
Theorem seed_products_unconfigured
    (driver_accepts : World -> string -> document -> bool) (w : World) :
  db w = None ->
  seed_products driver_accepts w
  = (Raise (HTTPException 500 "Database not configured"), w)
  /\ http_status (HTTPException 500 "Database not configured") = 500.
Proof.
  intros Hdb. unfold seed_products, get_db. run. by rewrite Hdb.
Qed.

Lemma seed_products_unconfigured_witness :
  seed_products always_accepts unconfigured_world
  = (Raise (HTTPException 500 "Database not configured"), unconfigured_world)
  /\ http_status (HTTPException 500 "Database not configured") = 500.
Proof.
  apply (seed_products_unconfigured always_accepts unconfigured_world).
  reflexivity.
Defined.

(** C8: the items are checked in their order and the check stops at the
    first item that fails: when the items before it pass and its
    [product_id] cannot be parsed, [create_order] raises the 400 error
    ['Invalid product id: <id>'] with that item's id, whatever the items
    after it are, and the world is as before. *)
Theorem create_order_first_unparseable
    (driver_accepts : World -> string -> document -> bool)
    (order : Order) (w : World) (pre suf : list OrderItem) (it : OrderItem) :
  items order = (pre ++ it :: suf)%list ->
  Forall (fun i => item_found w i = true) pre ->
  ObjectId.parse (product_id it) = None ->
  create_order driver_accepts order w
  = (Raise (HTTPException 400 ("Invalid product id: " +:+ product_id it)), w).
Proof.
  intros Hitems Hpre Hparse.
  apply (create_order_rejected driver_accepts order w pre suf it Hitems Hpre).
  unfold item_found. rewrite Hparse. by destruct (db w).
Qed.

Lemma create_order_first_unparseable_witness :
  create_order always_accepts
    (order_of ["000000000000000000000001"; "bee"; "0123456789abcdef01234567"])
    seeded_world
  = (Raise (HTTPException 400 "Invalid product id: bee"), seeded_world).
Proof.
  apply (create_order_first_unparseable always_accepts
           (order_of ["000000000000000000000001"; "bee"; "0123456789abcdef01234567"])
           seeded_world
           [{| product_id := "000000000000000000000001"; quantity := 1 |}]
           [{| product_id := "0123456789abcdef01234567"; quantity := 1 |}]
           {| product_id := "bee"; quantity := 1 |}).
  - reflexivity.
  - constructor; [reflexivity | constructor].
  - reflexivity.
Defined.

(** C9: a successful [create_order] appends exactly one document, the
    order with its new identifier, to the order collection and leaves the
    product collection as it was; after any sequence of order creations
    [list_products] answers what it answered before. *)
Theorem create_order_adds_one_order
    (driver_accepts : World -> string -> document -> bool)
    (order : Order) (w w' : World) (r : response) :
  create_order driver_accepts order w = (Return r, w') ->
  (exists d d' : Database,
      db w = Some d /\ db w' = Some d'
      /\ collection d' "order"
         = (collection d "order"
            ++ [<["_id" := VOid (ObjectId.of_N (next_oid d))]> (model_dump order)])%list
      /\ collection d' "beeproduct" = collection d "beeproduct"
      /\ r = IdResponse (ObjectId.str (ObjectId.of_N (next_oid d))))
  /\ forall orders : list Order,
       fst (list_products (place_orders driver_accepts orders w))
       = fst (list_products w).
Proof.
  intros Hrun. split; [|intros orders; apply list_products_after_orders].
  destruct (first_failing_item w (items order))
    as [Hall | (pre & it & suf & Hitems & Hpre & Hit)].
  - rewrite (create_order_checked _ _ _ Hall) in Hrun.
    unfold create_document in Hrun.
    destruct (db w) as [d|] eqn:Hdb; [|discriminate].
    destruct (driver_accepts w "order" (model_dump order)); [|discriminate].
    injection Hrun as <- <-. exists d, (stored "order" (model_dump order) d).
    repeat split.
    + apply collection_stored_same.
    + by apply collection_stored_other.
  - rewrite (create_order_rejected _ _ _ _ _ _ Hitems Hpre Hit) in Hrun.
    discriminate.
Qed.

Lemma create_order_adds_one_order_witness :
  exists (w' : World) (r : response),
    create_order always_accepts (order_of ["000000000000000000000000"]) seeded_world
    = (Return r, w')
    /\ (exists d d' : Database,
          db seeded_world = Some d /\ db w' = Some d'
          /\ collection d' "order"
             = (collection d "order"
                ++ [<["_id" := VOid (ObjectId.of_N (next_oid d))]>
                      (model_dump (order_of ["000000000000000000000000"]))])%list
          /\ collection d' "beeproduct" = collection d "beeproduct"
          /\ r = IdResponse (ObjectId.str (ObjectId.of_N (next_oid d))))
    /\ forall orders : list Order,
         fst (list_products (place_orders always_accepts orders seeded_world))
         = fst (list_products seeded_world).
Proof.
  eexists _, _. split; [reflexivity|].
  apply (create_order_adds_one_order always_accepts
           (order_of ["000000000000000000000000"]) seeded_world).
  reflexivity.
Defined.

(** C10: without a database handle [create_order] answers any order with
    at least one item with the 400 error ['Invalid product id: <id>'] of
    the first item, not with a 500: the [TypeError] of subscripting
    [None] is caught by the handler of the loop body.  The world is as
    before. *)
Theorem create_order_unconfigured
    (driver_accepts : World -> string -> document -> bool)
    (order : Order) (w : World) (it : OrderItem) (rest : list OrderItem) :
  db w = None ->
  items order = it :: rest ->
  create_order driver_accepts order w
  = (Raise (HTTPException 400 ("Invalid product id: " +:+ product_id it)), w)
  /\ http_status (HTTPException 400 ("Invalid product id: " +:+ product_id it)) = 400.
Proof.
  intros Hdb Hitems. split; [|reflexivity].
  apply (create_order_rejected driver_accepts order w [] rest it Hitems);
    [constructor|].
  unfold item_found. by rewrite Hdb.
Qed.

Lemma create_order_unconfigured_witness :
  create_order always_accepts (order_of ["000000000000000000000000"; "bee"])
    unconfigured_world
  = (Raise (HTTPException 400 "Invalid product id: 000000000000000000000000"),
     unconfigured_world)
  /\ http_status (HTTPException 400 "Invalid product id: 000000000000000000000000")
     = 400.
Proof.
  apply (create_order_unconfigured always_accepts
           (order_of ["000000000000000000000000"; "bee"]) unconfigured_world
           {| product_id := "000000000000000000000000"; quantity := 1 |}
           [{| product_id := "bee"; quantity := 1 |}]);
    reflexivity.
Defined.

(** ** Generated identifiers *)

Lemma hex_char_is_hex (d : N) :
  (d < 16)%N ->
  ObjectId.is_hex_digit (ObjectId.hex_char d) = true
  /\ ObjectId.lower (ObjectId.hex_char d) = ObjectId.hex_char d.
Proof.
  intros Hd.
  assert (Hall : forall n : nat,
             (n < 16)%nat ->
             ObjectId.is_hex_digit (ObjectId.hex_char (N.of_nat n)) = true
             /\ ObjectId.lower (ObjectId.hex_char (N.of_nat n))
                = ObjectId.hex_char (N.of_nat n)).
  { intros n Hn. do 16 (destruct n as [|n]; [by split|]). lia. }
  rewrite <- (N2Nat.id d). apply Hall. lia.
Qed.

Lemma all_hex_append (s t : string) :
  ObjectId.all_hex (s +:+ t) = ObjectId.all_hex s && ObjectId.all_hex t.
Proof.
  induction s as [|c s IH]; simpl; [done|]. by rewrite IH, andb_assoc.
Qed.

Lemma lower_all_append (s t : string) :
  ObjectId.lower_all (s +:+ t) = ObjectId.lower_all s +:+ ObjectId.lower_all t.
Proof. induction s as [|c s IH]; simpl; [done|]. by rewrite IH. Qed.

Lemma string_length_append (s t : string) :
  String.length (s +:+ t) = (String.length s + String.length t)%nat.
Proof. induction s as [|c s IH]; simpl; [done|]. by rewrite IH. Qed.

Lemma hex_of_canonical (k : nat) :
  forall n : N,
    String.length (ObjectId.hex_of k n) = k
    /\ ObjectId.all_hex (ObjectId.hex_of k n) = true
    /\ ObjectId.lower_all (ObjectId.hex_of k n) = ObjectId.hex_of k n.
Proof.
  induction k as [|k IH]; intros n; [done|].
  destruct (IH (n / 16)%N) as (Hlen & Hhex & Hlow).
  destruct (hex_char_is_hex (n mod 16)%N) as [Hc Hl];
    [apply N.mod_upper_bound; lia|].
  simpl ObjectId.hex_of.
  rewrite string_length_append, all_hex_append, lower_all_append, Hlen, Hhex, Hlow.
  simpl. rewrite Hc, Hl. split; [lia | by split].
Qed.

(** The written form of a generated identifier parses back to it. *)
Lemma parse_str_generated (n : N) :
  ObjectId.parse (ObjectId.str (ObjectId.of_N n)) = Some (ObjectId.of_N n).
Proof.
  destruct (hex_of_canonical 24 n) as (Hlen & Hhex & Hlow).
  unfold ObjectId.parse, ObjectId.is_valid, ObjectId.str, ObjectId.of_N.
  cbn [ObjectId.hex]. by rewrite Hlen, Hhex, Hlow.
Qed.

Lemma find_last_inserted (oid : ObjectId.t) (doc : document) (l : list document) :
  is_Some (List.find (has_id oid) (l ++ [<["_id" := VOid oid]> doc])%list).
Proof.
  induction l as [|x l IH]; simpl.
  - unfold has_id. rewrite lookup_insert_eq, bool_decide_eq_true_2; [by eexists|done].
  - destruct (has_id oid x); [by eexists | exact IH].
Qed.

(** ** [create_product] and the orders that follow it *)

Section Catalog.

Variable driver_accepts : World -> string -> document -> bool.

Lemma create_product_run (p : BeeProduct) (w : World) (d : Database) :
  db w = Some d ->
  driver_accepts w "beeproduct" (BeeProduct_dump p) = true ->
  create_product driver_accepts p w
  = (Return (IdResponse (ObjectId.str (ObjectId.of_N (next_oid d)))),
     {| db := Some (stored "beeproduct" (BeeProduct_dump p) d);
        journal := logged "beeproduct" (BeeProduct_dump p) true w |}).
Proof.
  intros Hdb Hok. unfold create_product, create_document. run.
  by rewrite Hdb, Hok.
Qed.

(** X1: a product created on a configured store that accepts the insert
    is the last document [list_products] returns afterwards, with the
    fields it was created with and the returned id, in string form, under
    ["_id"]; the documents listed before are listed unchanged. *)
Theorem create_product_then_listed (p : BeeProduct) (w : World) (d : Database) :
  db w = Some d ->
  driver_accepts w "beeproduct" (BeeProduct_dump p) = true ->
  exists (i : string) (w' : World) (before : list document),
    create_product driver_accepts p w = (Return (IdResponse i), w')
    /\ fst (list_products w) = Return (ProductsResponse before)
    /\ fst (list_products w')
       = Return (ProductsResponse
                   (before ++ [<["_id" := VStr i]> (BeeProduct_dump p)])%list).
Proof.
  intros Hdb Hok. eexists _, _, _.
  split; [by apply create_product_run|].
  split; [by rewrite (list_products_run w d Hdb)|].
  erewrite list_products_run by reflexivity. simpl.
  rewrite collection_stored_same, fmap_app. simpl.
  unfold normalize_id at 2. by rewrite lookup_insert_eq, insert_insert_eq.
Qed.

(** X2: the id [create_product] returns is carried by a product document
    of the store it leaves, so it passes the check of [create_order]: an
    order whose only item carries it, with any quantity, is appended to
    the order collection under a new identifier, which is returned, when
    the driver accepts the insert. *)
Theorem created_product_can_be_ordered (p : BeeProduct) (w : World)
    (d : Database) (q : Z) :
  db w = Some d ->
  driver_accepts w "beeproduct" (BeeProduct_dump p) = true ->
  let i := ObjectId.str (ObjectId.of_N (next_oid d)) in
  let d1 := stored "beeproduct" (BeeProduct_dump p) d in
  let w1 := {| db := Some d1;
               journal := logged "beeproduct" (BeeProduct_dump p) true w |} in
  create_product driver_accepts p w = (Return (IdResponse i), w1)
  /\ item_found w1 {| product_id := i; quantity := q |} = true
  /\ forall order : Order,
       items order = [{| product_id := i; quantity := q |}] ->
       driver_accepts w1 "order" (model_dump order) = true ->
       create_order driver_accepts order w1
       = (Return (IdResponse (ObjectId.str (ObjectId.of_N (next_oid d1)))),
          {| db := Some (stored "order" (model_dump order) d1);
             journal := logged "order" (model_dump order) true w1 |})
       /\ collection (stored "order" (model_dump order) d1) "order"
          = (collection d "order"
             ++ [<["_id" := VOid (ObjectId.of_N (next_oid d1))]>
                   (model_dump order)])%list.
Proof.
  intros Hdb Hok i d1 w1.
  split; [by apply create_product_run|].
  assert (Hfound : item_found w1 {| product_id := i; quantity := q |} = true).
  { unfold item_found, w1, d1, i. cbn [db product_id].
    rewrite parse_str_generated, collection_stored_same.
    by destruct (find_last_inserted (ObjectId.of_N (next_oid d))
                   (BeeProduct_dump p) (collection d "beeproduct")) as [x ->]. }
  split; [exact Hfound|].
  intros order Hitems Haccept. split.
  - rewrite create_order_checked by (rewrite Hitems; by constructor).
    unfold create_document. change (db w1) with (Some d1). by rewrite Haccept.
  - rewrite collection_stored_same. f_equal.
    unfold d1. by apply collection_stored_other.
Qed.

(** X3: when every item passes the check but the driver rejects the
    insert of the order, [create_order] raises the driver's failure
    unhandled, which is answered with status 500; no order is stored and
    the database is as before. *)
Theorem create_order_insert_failure (order : Order) (w : World) (d : Database) :
  db w = Some d ->
  Forall (fun it => item_found w it = true) (items order) ->
  driver_accepts w "order" (model_dump order) = false ->
  create_order driver_accepts order w
  = (Raise WriteFailure,
     {| db := Some d; journal := logged "order" (model_dump order) false w |})
  /\ http_status WriteFailure = 500.
Proof.
  intros Hdb Hall Hreject. split; [|reflexivity].
  rewrite (create_order_checked _ _ _ Hall). unfold create_document.
  by rewrite Hdb, Hreject.
Qed.

(** X4: the handler [create_order] has no check for an empty [items]:
    called with an order without items on a configured store that accepts
    the insert, it stores the order and returns its identifier. *)
Theorem create_order_without_items_is_stored (order : Order) (w : World)
    (d : Database) :
  db w = Some d ->
  items order = [] ->
  driver_accepts w "order" (model_dump order) = true ->
  exists (w' : World) (d' : Database),
    create_order driver_accepts order w
    = (Return (IdResponse (ObjectId.str (ObjectId.of_N (next_oid d)))), w')
    /\ db w' = Some d'
    /\ collection d' "order"
       = (collection d "order"
          ++ [<["_id" := VOid (ObjectId.of_N (next_oid d))]> (model_dump order)])%list.
Proof.
  intros Hdb Hnone Hok.
  rewrite create_order_checked by (rewrite Hnone; constructor).
  unfold create_document. rewrite Hdb, Hok. eexists _, _.
  split; [reflexivity|]. split; [reflexivity|]. apply collection_stored_same.
Qed.

(** X5: whenever [create_order] returns, the database is configured,
    every item's [product_id] parsed and was carried by a product
    document when the call was made, and the driver accepted the insert;
    the answer is the new identifier and the world is the one with the
    order appended. *)
Theorem create_order_accepted_only_if (order : Order) (w w' : World)
    (r : response) :
  create_order driver_accepts order w = (Return r, w') ->
  exists d : Database,
    db w = Some d
    /\ Forall (fun it => item_found w it = true) (items order)
    /\ driver_accepts w "order" (model_dump order) = true
    /\ r = IdResponse (ObjectId.str (ObjectId.of_N (next_oid d)))
    /\ w' = {| db := Some (stored "order" (model_dump order) d);
               journal := logged "order" (model_dump order) true w |}.
Proof.
  intros Hrun.
  destruct (first_failing_item w (items order))
    as [Hall | (pre & it & suf & Hitems & Hpre & Hit)].
  - rewrite (create_order_checked _ _ _ Hall) in Hrun.
    unfold create_document in Hrun.
    destruct (db w) as [d|]; [|discriminate].
    destruct (driver_accepts w "order" (model_dump order)) eqn:Hok;
      [|discriminate].
    injection Hrun as <- <-. by exists d.
  - rewrite (create_order_rejected _ _ _ _ _ _ Hitems Hpre Hit) in Hrun.
    discriminate.
Qed.

End Catalog.

(** X6: the check of the items looks at the product ids only: two item
    sequences with the same ids in the same order get the same verdict,
    whatever their quantities. *)
Theorem verify_items_ignores_quantity (l l' : list OrderItem) (w : World) :
  product_id <$> l = product_id <$> l' ->
  verify_items l w = verify_items l' w.
Proof.
  revert l'. induction l as [|it l IH]; intros [|it' l'] Hids; try done.
  rewrite !fmap_cons in Hids. injection Hids as Hid Hrest.
  simpl. run. rewrite !verify_item_eq.
  unfold item_found, invalid_product_id. rewrite Hid.
  destruct (match db w with Some _ => _ | None => _ end); [|done].
  by apply IH.
Qed.

Lemma create_product_then_listed_witness :
  exists (i : string) (w' : World) (before : list document),
    create_product always_accepts queen seeded_world = (Return (IdResponse i), w')
    /\ fst (list_products seeded_world) = Return (ProductsResponse before)
    /\ fst (list_products w')
       = Return (ProductsResponse
                   (before ++ [<["_id" := VStr i]> (BeeProduct_dump queen)])%list).
Proof.
  apply (create_product_then_listed always_accepts queen seeded_world
           seeded_database);
    reflexivity.
Defined.

Lemma created_product_can_be_ordered_witness :
  let i := ObjectId.str (ObjectId.of_N (next_oid empty_database)) in
  let d1 := stored "beeproduct" (BeeProduct_dump queen) empty_database in
  let w1 := {| db := Some d1;
               journal := logged "beeproduct" (BeeProduct_dump queen) true
                            fresh_world |} in
  create_product always_accepts queen fresh_world = (Return (IdResponse i), w1)
  /\ item_found w1 {| product_id := i; quantity := 2 |} = true
  /\ forall order : Order,
       items order = [{| product_id := i; quantity := 2 |}] ->
       always_accepts w1 "order" (model_dump order) = true ->
       create_order always_accepts order w1
       = (Return (IdResponse (ObjectId.str (ObjectId.of_N (next_oid d1)))),
          {| db := Some (stored "order" (model_dump order) d1);
             journal := logged "order" (model_dump order) true w1 |})
       /\ collection (stored "order" (model_dump order) d1) "order"
          = (collection empty_database "order"
             ++ [<["_id" := VOid (ObjectId.of_N (next_oid d1))]>
                   (model_dump order)])%list.
Proof.
  apply (created_product_can_be_ordered always_accepts queen fresh_world
           empty_database 2);
    reflexivity.
Defined.

Lemma create_order_accepted_only_if_witness :
  exists (r : response) (w' : World) (d : Database),
    create_order always_accepts (order_of ["000000000000000000000001"])
      seeded_world
    = (Return r, w')
    /\ db seeded_world = Some d
    /\ Forall (fun it => item_found seeded_world it = true)
         (items (order_of ["000000000000000000000001"]))
    /\ always_accepts seeded_world "order"
         (model_dump (order_of ["000000000000000000000001"])) = true
    /\ r = IdResponse (ObjectId.str (ObjectId.of_N (next_oid d)))
    /\ w' = {| db := Some (stored "order"
                            (model_dump (order_of ["000000000000000000000001"])) d);
               journal := logged "order"
                            (model_dump (order_of ["000000000000000000000001"]))
                            true seeded_world |}.
Proof.
  assert (Hrun : create_order always_accepts
                   (order_of ["000000000000000000000001"]) seeded_world
                 = (Return (IdResponse "000000000000000000000004"),
                    snd (create_order always_accepts
                           (order_of ["000000000000000000000001"]) seeded_world)))
    by reflexivity.
  destruct (create_order_accepted_only_if always_accepts _ _ _ _ Hrun)
    as (d & Hd).
  eexists _, _, d. split; [exact Hrun | exact Hd].
Defined.

Lemma create_order_insert_failure_witness :
  create_order never_accepts (order_of ["000000000000000000000002"]) seeded_world
  = (Raise WriteFailure,
     {| db := Some seeded_database;
        journal := logged "order"
                     (model_dump (order_of ["000000000000000000000002"]))
                     false seeded_world |})
  /\ http_status WriteFailure = 500.
Proof.
  apply (create_order_insert_failure never_accepts
           (order_of ["000000000000000000000002"]) seeded_world seeded_database).
  - reflexivity.
  - constructor; [reflexivity | constructor].
  - reflexivity.
Defined.

Lemma create_order_without_items_is_stored_witness :
  exists (w' : World) (d' : Database),
    create_order always_accepts (order_of []) seeded_world
    = (Return (IdResponse (ObjectId.str (ObjectId.of_N (next_oid seeded_database)))),
       w')
    /\ db w' = Some d'
    /\ collection d' "order"
       = (collection seeded_database "order"
          ++ [<["_id" := VOid (ObjectId.of_N (next_oid seeded_database))]>
                (model_dump (order_of []))])%list.
Proof.
  apply (create_order_without_items_is_stored always_accepts (order_of [])
           seeded_world seeded_database);
    reflexivity.
Defined.

Lemma verify_items_ignores_quantity_witness :
  verify_items
    [{| product_id := "000000000000000000000001"; quantity := 1 |};
     {| product_id := "bee"; quantity := 3 |}] seeded_world
  = verify_items
      [{| product_id := "000000000000000000000001"; quantity := 0 |};
       {| product_id := "bee"; quantity := -7 |}] seeded_world.
Proof.
  apply (verify_items_ignores_quantity
           [{| product_id := "000000000000000000000001"; quantity := 1 |};
            {| product_id := "bee"; quantity := 3 |}]
           [{| product_id := "000000000000000000000001"; quantity := 0 |};
            {| product_id := "bee"; quantity := -7 |}] seeded_world).
  reflexivity.
Defined.

(** ** [seed_products], further *)

Section SeedFurther.

Variable driver_accepts : World -> string -> document -> bool.

Lemma seed_products_skips (w : World) (d : Database) :
  db w = Some d ->
  (0 < length (collection d "beeproduct"))%nat ->
  seed_products driver_accepts w
  = (Return (SeedResponse "Products already seeded"
               (Z.of_nat (length (collection d "beeproduct")))), w).
Proof.
  intros Hdb Hcount. unfold seed_products, get_db, db_getitem, count_documents.
  run. repeat (rewrite Hdb; simpl).
  destruct (0 <? Z.of_nat (length (collection d "beeproduct"))) eqn:Hlt;
    [reflexivity | lia].
Qed.

Lemma seed_products_seeds (w : World) (d : Database) :
  db w = Some d ->
  collection d "beeproduct" = [] ->
  seed_products driver_accepts w
  = bind (seed_loop driver_accepts defaults 0)
      (fun inserted => ret (SeedResponse "Seeded products" inserted)) w.
Proof.
  intros Hdb Hempty. unfold seed_products, get_db, db_getitem, count_documents.
  run. repeat (rewrite Hdb; simpl). by rewrite Hempty.
Qed.

Lemma seed_loop_frame (ps : list document) :
  forall (inserted : Z) (w : World) (d : Database),
    db w = Some d ->
    exists d' : Database,
      db (snd (seed_loop driver_accepts ps inserted w)) = Some d'
      /\ forall coll, coll <> "beeproduct" -> collection d' coll = collection d coll.
Proof.
  induction ps as [|p ps IH]; intros inserted w d Hdb; [by exists d|].
  simpl. run. rewrite (seed_one_run driver_accepts p inserted w d Hdb).
  set (ok := driver_accepts w "beeproduct" p).
  edestruct (IH (if ok then inserted + 1 else inserted)
               {| db := Some (if ok then stored "beeproduct" p d else d);
                  journal := logged "beeproduct" p ok w |}) as (d' & Hdb' & Hframe);
    [reflexivity|].
  exists d'. split; [exact Hdb'|].
  intros coll Hne. rewrite (Hframe coll Hne).
  destruct ok; [by apply collection_stored_other | done].
Qed.

(** X7: whenever [seed_products] returns, it either found products and
    changed nothing, reporting how many there are, or found none and
    handed the four defaults to the driver as [attempt_each] does,
    reporting the accepted ones; in both cases the count it reports is
    the number of product documents in the store after the call, and
    every other collection is as before. *)
Theorem seed_products_reports_catalog_size (w w' : World) (message : string)
    (n : Z) :
  seed_products driver_accepts w = (Return (SeedResponse message n), w') ->
  exists d d' : Database,
    db w = Some d /\ db w' = Some d'
    /\ n = Z.of_nat (length (collection d' "beeproduct"))
    /\ (forall coll, coll <> "beeproduct" -> collection d' coll = collection d coll)
    /\ (message = "Products already seeded"
          /\ collection d "beeproduct" <> [] /\ w' = w
        \/ message = "Seeded products"
           /\ collection d "beeproduct" = []
           /\ w' = snd (attempt_each driver_accepts "beeproduct" defaults w)
           /\ n = successes
                    (fst (attempt_each driver_accepts "beeproduct" defaults w))).
Proof.
  intros Hrun. destruct (db w) as [d|] eqn:Hdb.
  - destruct (collection d "beeproduct") as [|doc docs] eqn:Hcoll.
    + rewrite (seed_products_seeds w d Hdb Hcoll) in Hrun. unfold bind in Hrun.
      rewrite (seed_loop_attempts driver_accepts defaults 0 w d Hdb) in Hrun.
      destruct (attempt_each_facts driver_accepts "beeproduct" defaults w d Hdb)
        as (d' & _ & _ & _ & Hdb' & Hlen).
      destruct (seed_loop_frame defaults 0 w d Hdb) as (d'' & Hdb'' & Hframe).
      rewrite (seed_loop_attempts driver_accepts defaults 0 w d Hdb) in Hdb''.
      cbn [fst snd] in Hdb', Hlen, Hdb''.
      assert (d'' = d') as -> by congruence.
      unfold ret in Hrun. injection Hrun as <- <- <-.
      rewrite Hcoll in Hlen. simpl in Hlen.
      exists d, d'. split; [done|]. split; [exact Hdb'|].
      split; [lia|]. split; [exact Hframe|]. right. by rewrite Hcoll.
    + rewrite (seed_products_skips w d Hdb) in Hrun by (rewrite Hcoll; simpl; lia).
      injection Hrun as <- <- <-.
      exists d, d. rewrite Hcoll. repeat split; try done. by left.
  - unfold seed_products, get_db in Hrun. run. by rewrite Hdb in Hrun.
Qed.

End SeedFurther.


Lemma seed_products_reports_catalog_size_witness :
  exists d d' : Database,
    db fresh_world = Some d
    /\ db (snd (seed_products rejects_first fresh_world)) = Some d'
    /\ 3 = Z.of_nat (length (collection d' "beeproduct"))
    /\ (forall coll, coll <> "beeproduct" -> collection d' coll = collection d coll)
    /\ ("Seeded products" = "Products already seeded"
          /\ collection d "beeproduct" <> []
          /\ snd (seed_products rejects_first fresh_world) = fresh_world
        \/ "Seeded products" = "Seeded products"
           /\ collection d "beeproduct" = []
           /\ snd (seed_products rejects_first fresh_world)
              = snd (attempt_each rejects_first "beeproduct" defaults fresh_world)
           /\ 3 = successes
                    (fst (attempt_each rejects_first "beeproduct" defaults
                            fresh_world))).
Proof.
  apply (seed_products_reports_catalog_size rejects_first fresh_world
           (snd (seed_products rejects_first fresh_world)) "Seeded products" 3).
  reflexivity.
Defined.


(** ** [test_database] *)

Section DiagnosticsFacts.

Variable environ : gmap string string.
Variable name_attr : Database -> string + option string.
Variable list_collection_names : Database -> string + list string.

Local Abbreviation diagnose :=
  (test_database environ name_attr list_collection_names).

(** X9: whatever the state of the database, the fields [database_url]
    and [database_name] of the diagnostic object only say whether the
    environment variables [DATABASE_URL] and [DATABASE_NAME] are set to a
    non-empty value; what the handler wrote to them earlier never reaches
    the caller. *)
Theorem test_database_reports_environment (w : World) :
  diagnose w !! "database_url"
  = Some (JStr (if getenv_truthy environ "DATABASE_URL"
                then "✅ Set" else "❌ Not Set"))
  /\ diagnose w !! "database_name"
     = Some (JStr (if getenv_truthy environ "DATABASE_NAME"
                   then "✅ Set" else "❌ Not Set")).
Proof.
  unfold test_database. split.
  - by rewrite lookup_insert_ne, lookup_insert_eq.
  - by rewrite lookup_insert_eq.
Qed.

(** X10: the diagnostic object lists at most ten collection names: the
    first ten the driver reports when the database is configured, its
    name could be read and the listing succeeded, and none otherwise. *)
Theorem test_database_collections_bounded (w : World) :
  exists l : list string,
    diagnose w !! "collections" = Some (JList l)
    /\ (length l <= 10)%nat
    /\ (forall (d : Database) (name : option string) (names : list string),
          db w = Some d -> name_attr d = inr name ->
          list_collection_names d = inr names -> l = take 10 names)
    /\ (l <> [] ->
        exists (d : Database) (name : option string) (names : list string),
          db w = Some d /\ name_attr d = inr name
          /\ list_collection_names d = inr names).
Proof.
  unfold test_database.
  destruct (db w) as [d|] eqn:Hdb.
  - destruct (name_attr d) as [e|name] eqn:Hname.
    + exists []. split; [by simplify_map_eq|]. split; [simpl; lia|].
      split; [|done]. intros d' name names Hd Hn. congruence.
    + destruct (list_collection_names d) as [e|names] eqn:Hnames.
      * exists []. split; [by simplify_map_eq|]. split; [simpl; lia|].
        split; [|done]. intros d' name' names Hd _ Hl. congruence.
      * exists (take 10 names). split; [by simplify_map_eq|].
        split; [rewrite length_take; lia|]. split.
        -- intros d' name' names' Hd _ Hl. congruence.
        -- intros _. by exists d, name, names.
  - exists []. split; [by simplify_map_eq|]. split; [simpl; lia|].
    split; [|done]. intros d name names Hd. congruence.
Qed.

(** X11: the diagnostic object says ["Connected"] exactly when the
    database is configured and its name could be read, and
    ["Connected & Working"] exactly when, in addition, the driver listed
    the collections. *)
Theorem test_database_status (w : World) :
  (diagnose w !! "connection_status" = Some (JStr "Connected")
   <-> exists (d : Database) (name : option string),
         db w = Some d /\ name_attr d = inr name)
  /\ (diagnose w !! "database" = Some (JStr "✅ Connected & Working")
      <-> exists (d : Database) (name : option string) (names : list string),
            db w = Some d /\ name_attr d = inr name
            /\ list_collection_names d = inr names).
Proof.
  unfold test_database.
  destruct (db w) as [d|] eqn:Hdb.
  - destruct (name_attr d) as [e|name] eqn:Hname.
    + split; (split; [simplify_map_eq; discriminate|]).
      * intros (d' & name & Hd & Hn). congruence.
      * intros (d' & name & names & Hd & Hn & _). congruence.
    + destruct (list_collection_names d) as [e|names] eqn:Hnames.
      * split; split.
        -- intros _. by exists d, name.
        -- intros _. by simplify_map_eq.
        -- simplify_map_eq. discriminate.
        -- intros (d' & name' & names & Hd & _ & Hl). congruence.
      * split; split.
        -- intros _. by exists d, name.
        -- intros _. by simplify_map_eq.
        -- intros _. by exists d, name, names.
        -- intros _. by simplify_map_eq.
  - split; (split; [simplify_map_eq; discriminate|]).
    + intros (d & name & Hd & _). congruence.
    + intros (d & name & names & Hd & _). congruence.
Qed.

End DiagnosticsFacts.

(** ** What the handlers answer, further *)

(** X12: every [HTTPException] [create_order] raises has status 400 and
    the detail ['Invalid product id: <id>'] of an item of the order all
    of whose predecessors passed the check: the error names the item at
    which the check stopped.  The world is then as before. *)
Theorem create_order_error_names_stopping_item
    (driver_accepts : World -> string -> document -> bool)
    (order : Order) (w w' : World) (status_code : Z) (detail : string) :
  create_order driver_accepts order w
  = (Raise (HTTPException status_code detail), w') ->
  w' = w
  /\ status_code = 400
  /\ exists (pre suf : list OrderItem) (it : OrderItem),
       items order = (pre ++ it :: suf)%list
       /\ Forall (fun i => item_found w i = true) pre
       /\ detail = "Invalid product id: " +:+ product_id it.
Proof.
  intros Hrun.
  destruct (first_failing_item w (items order))
    as [Hall | (pre & it & suf & Hitems & Hpre & Hit)].
  - rewrite (create_order_checked _ _ _ Hall) in Hrun.
    unfold create_document in Hrun.
    destruct (db w); [|discriminate].
    destruct (driver_accepts _ _ _); discriminate.
  - rewrite (create_order_rejected _ _ _ _ _ _ Hitems Hpre Hit) in Hrun.
    unfold invalid_product_id in Hrun. injection Hrun as <- <- <-.
    repeat split. by exists pre, suf, it.
Qed.

Lemma create_order_error_names_stopping_item_witness :
  seeded_world = seeded_world
  /\ 400 = 400
  /\ exists (pre suf : list OrderItem) (it : OrderItem),
       items (order_of ["000000000000000000000003"; "0123456789abcdef01234567"])
       = (pre ++ it :: suf)%list
       /\ Forall (fun i => item_found seeded_world i = true) pre
       /\ "Invalid product id: 0123456789abcdef01234567"
          = "Invalid product id: " +:+ product_id it.
Proof.
  apply (create_order_error_names_stopping_item always_accepts
           (order_of ["000000000000000000000003"; "0123456789abcdef01234567"])
           seeded_world seeded_world 400
           "Invalid product id: 0123456789abcdef01234567").
  reflexivity.
Defined.

(** X13: no document [list_products] returns carries an [ObjectId] under
    ["_id"], and a stored document whose ["_id"] is missing or is not an
    [ObjectId] is returned as stored. *)
Theorem list_products_no_object_id (w : World) (docs : list document) :
  fst (list_products w) = Return (ProductsResponse docs) ->
  Forall (fun doc => forall oid, doc !! "_id" <> Some (VOid oid)) docs
  /\ exists d : Database,
       db w = Some d
       /\ Forall2
            (fun kept sent =>
               (forall oid, kept !! "_id" <> Some (VOid oid)) -> sent = kept)
            (collection d "beeproduct") docs.
Proof.
  intros Hrun. destruct (db w) as [d|] eqn:Hdb.
  - rewrite (list_products_run w d Hdb) in Hrun. simpl in Hrun.
    injection Hrun as <-. split.
    + apply Forall_fmap, Forall_forall. intros doc _ oid. simpl.
      unfold normalize_id.
      destruct (doc !! "_id") as [[]|] eqn:Hid;
        try (rewrite Hid; discriminate).
      by rewrite lookup_insert_eq.
    + exists d. split; [done|].
      apply Forall2_fmap_r, Forall2_same_length_lookup_2; [done|].
      intros i kept sent Hk Hs Hnone. rewrite Hk in Hs. injection Hs as <-.
      unfold normalize_id.
      destruct (kept !! "_id") as [[]|] eqn:Hid; try done.
      by destruct (Hnone o).
  - unfold list_products, get_documents in Hrun. run. by rewrite Hdb in Hrun.
Qed.

Lemma list_products_no_object_id_witness :
  exists docs : list document,
    fst (list_products seeded_world) = Return (ProductsResponse docs)
    /\ Forall (fun doc => forall oid, doc !! "_id" <> Some (VOid oid)) docs
    /\ exists d : Database,
         db seeded_world = Some d
         /\ Forall2
              (fun kept sent =>
                 (forall oid, kept !! "_id" <> Some (VOid oid)) -> sent = kept)
              (collection d "beeproduct") docs.
Proof.
  eexists. split; [reflexivity|].
  apply (list_products_no_object_id seeded_world). reflexivity.
Defined.
